(** * xAPI transformers of the completion aggregator

    A shallow embedding of [completion_aggregator/xapi.py]: the class
    hierarchy of completion and progress transformers, the attributes each
    class body assigns, attribute resolution along the method resolution
    order, the per-instance cache behind [@cached_property], and the methods
    [get_object], [get_result] and [get_context_activities].

    Python values are a small dynamically typed universe; a method that can
    raise returns an [outcome]; a method that reads attributes of [self]
    threads the instance [__dict__] (a [gmap]) through a state monad. *)

From Stdlib Require Import ZArith Ascii Floats.SpecFloat.
From stdpp Require Import base option strings pretty gmap.

Set Warnings "-register-all".

(** ** Python values *)

Module Py.

(** The values an event payload (decoded JSON) can hold. A Python [float]
    is an IEEE binary64 number, kept as a [spec_float]. *)
Inductive value : Type :=
| VNone
| VBool (b : bool)
| VInt (n : Z)
| VFloat (x : spec_float)
| VStr (s : string)
| VList (xs : list value)
| VDict (d : gmap string value).

(** The float literals [0.0] and [1.0]. *)
Definition F0 : spec_float := S754_zero false.
Definition F1 : spec_float := S754_finite false 4503599627370496 (-52).

Definition float_is_zero (x : spec_float) : bool :=
  match x with S754_zero _ => true | _ => false end.

(** [bool(v)]: the truth value Python's [or], [not] and [if] test. *)
Definition truthy (v : value) : bool :=
  match v with
  | VNone => false
  | VBool b => b
  | VInt n => negb (n =? 0)%Z
  | VFloat x => negb (float_is_zero x)
  | VStr s => negb (String.eqb s "")
  | VList xs => match xs with [] => false | _ :: _ => true end
  | VDict d => negb (size d =? 0)%nat
  end.

(** [a or b]: [a] when it is truthy, else [b]. *)
Definition or_ (a b : value) : value := if truthy a then a else b.

(** [x == n] for a float [x] and an integer [n]: Python compares the
    two numbers exactly, without rounding [n]. *)
Definition float_eq_int (x : spec_float) (n : Z) : bool :=
  match x with
  | S754_zero _ => (n =? 0)%Z
  | S754_finite s m e =>
      let sm := if s then Z.neg m else Z.pos m in
      if (0 <=? e)%Z then (n =? sm * 2 ^ e)%Z else (n * 2 ^ (- e) =? sm)%Z
  | S754_infinity _ | S754_nan => false
  end.

Definition int_of_bool (b : bool) : Z := if b then 1%Z else 0%Z.

(** [v == x] where [x] is a float: [bool] and [int] take part in the
    numeric tower, every other type compares unequal to a number. *)
Definition eq_float (v : value) (x : spec_float) : bool :=
  match v with
  | VBool b => float_eq_int x (int_of_bool b)
  | VInt n => float_eq_int x n
  | VFloat y => SFeqb y x
  | VNone | VStr _ | VList _ | VDict _ => false
  end.

(** [0 <= v <= 1] for a number [v]; no other value lies in the interval. *)
Definition in_unit_interval (v : value) : bool :=
  match v with
  | VBool _ => true
  | VInt n => (0 <=? n)%Z && (n <=? 1)%Z
  | VFloat x => SFleb F0 x && SFleb x F1
  | VNone | VStr _ | VList _ | VDict _ => false
  end.

(** [s.split(".")] *)
Fixpoint split_dots (s : string) : list string :=
  match s with
  | EmptyString => [EmptyString]
  | String c s' =>
      if Ascii.eqb c "."%char
      then EmptyString :: split_dots s'
      else match split_dots s' with
           | [] => [String c EmptyString]
           | w :: ws => String c w :: ws
           end
  end.

(** Exceptions the transformers can raise. [SetterError] stands for the
    [TypeError] or [ValueError] with which a tincan setter refuses a value
    for a property. *)
Inductive exn : Type :=
| ValueError (key : string)
| NotImplementedError
| AttributeError (name : string)
| SetterError (property : string).

Inductive outcome (A : Type) : Type :=
| Return (a : A)
| Raise (e : exn).
Global Arguments Return {A} a.
Global Arguments Raise {A} e.

Definition raised {A} (o : outcome A) : bool :=
  match o with Return _ => false | Raise _ => true end.

#[global] Instance outcome_ret : MRet outcome := fun A a => Return a.
#[global] Instance outcome_bind : MBind outcome := fun A B k o =>
  match o with
  | Return a => k a
  | Raise e => Raise e
  end.

End Py.
Import Py.

(** ** Methods on an instance

    The only mutable part of a transformer instance is its [__dict__]; a
    method is a function from the [__dict__] before the call to an outcome
    and the [__dict__] after it. An exception leaves the [__dict__] as it
    was when the exception was raised. *)

Abbreviation attrs := (gmap string value).

Definition M (A : Type) : Type := attrs -> outcome A * attrs.

#[global] Instance M_ret : MRet M := fun A a d => (Return a, d).
#[global] Instance M_bind : MBind M := fun A B k m d =>
  match m d with
  | (Return a, d') => k a d'
  | (Raise e, d') => (Raise e, d')
  end.

Definition raise {A} (e : exn) : M A := fun d => (Raise e, d).
Definition lift {A} (o : outcome A) : M A := fun d => (o, d).

(** ** What the module imports

    [event_routing_backends] and [tincan] are not part of this repository.
    The framework's constants and the helper that builds an object IRI are
    taken as parameters; the payload accessor is modelled after its
    contract, and tincan's [Result] after what its [Score] does with the
    value it is given. *)

Module constants.

(** The attributes of [event_routing_backends.processors.xapi.constants]
    the module reads. [XAPI_ACTIVITY_LESSON] is read with a three-argument
    [getattr], so the constants module may or may not define it. *)
Class t : Type := {
  XAPI_VERB_COMPLETED : string;
  COMPLETED : string;
  XAPI_VERB_PROGRESSED : string;
  PROGRESSED : string;
  EN : string;
  XAPI_ACTIVITY_MODULE : string;
  XAPI_ACTIVITY_COURSE : string;
  XAPI_ACTIVITY_LESSON : option string;
}.

(** The activity types are configured: none is the empty string. *)
Definition configured (c : t) : bool :=
  negb (String.eqb XAPI_ACTIVITY_MODULE "")
  && negb (String.eqb XAPI_ACTIVITY_COURSE "")
  && match XAPI_ACTIVITY_LESSON with
     | Some l => negb (String.eqb l "")
     | None => true
     end.

End constants.

Module XApiTransformer.

(** Modelled from the spec: [get_value_from_dotted_path], the lookup behind
    the framework's payload accessor, which is not in this repository. The
    payload is read "by dotted-path lookup": the path is split at the dots
    and followed through nested dictionaries; a key that is missing, or a
    step into something that is not a dictionary, makes the path absent. *)
Fixpoint get_nested (keys : list string) (v : value) : option value :=
  match keys with
  | [] => Some v
  | k :: ks =>
      match v with
      | VDict d => d !! k ≫= get_nested ks
      | _ => None
      end
  end.

Definition get_value_from_dotted_path (event : value) (key : string)
  : option value :=
  get_nested (split_dots key) event.

(** Modelled from the spec: [get_data(dotted_path, required=bool)], the
    payload accessor of the framework's base transformer, which is not in
    this repository: it "raises/fails if [required=True] and path absent";
    an absent path that is not required reads as [None]. *)
Definition get_data (event : value) (key : string) (required : bool)
  : outcome value :=
  match get_value_from_dotted_path event key with
  | Some v => Return v
  | None => if required then Raise (ValueError key) else Return VNone
  end.

(** The rest of the base class this module calls or inherits:
    [get_object_iri(namespace, identifier)] builds the opaque object
    identifier, [get_context_activities] is the default the course
    transformers override. *)
Class t : Type := {
  get_object_iri : string -> value -> value;
  get_context_activities : value -> outcome value;
}.

End XApiTransformer.

(** ** tincan objects *)

Record Verb : Type := {
  verb_id : string;
  (** a [LanguageMap]: language tag to display string *)
  verb_display : gmap string string;
}.

Record ActivityDefinition : Type := { definition_type : value }.

(** [Activity(id=..., definition=ActivityDefinition(type=...))], holding
    the identifier and the type as they are passed: tincan stores [None]
    and a non-empty string as they are, which is what [get_object_iri] and
    the activity-type constants supply. *)
Record Activity : Type := {
  activity_id : value;
  activity_definition : ActivityDefinition;
}.

(** A [Result]: the completion flag, and the properties of its [Score] by
    name. *)
Record Result : Type := {
  completion : bool;
  score : gmap string value;
}.

Module tincan.

(** What is left open of Python and tincan: the parser behind [float(s)]
    for a string [s] ([None] when it raises), and whether the [scaled]
    setter takes a [bool], converting it as the int it is, or refuses
    it. *)
Class t : Type := {
  float_of_str : string -> option spec_float;
  accepts_bool : bool;
}.

(** [float(n)] for an int [n]: the nearest binary64 number, ties to even;
    [None] when Python raises [OverflowError]. *)
Definition float_of_int (n : Z) : option spec_float :=
  match binary_normalize 53 1024 n 0 false with
  | S754_infinity _ | S754_nan => None
  | x => Some x
  end.

Section Constructors.

Context {T : t}.

(** The [scaled] setter of [Score]: [None] and a float are stored as they
    are; any other value goes through [float()], and the setter raises
    when the conversion fails. *)
Definition Score_scaled (v : value) : outcome value :=
  match v with
  | VNone => Return VNone
  | VFloat x => Return (VFloat x)
  | VInt n =>
      match float_of_int n with
      | Some x => Return (VFloat x)
      | None => Raise (SetterError "scaled")
      end
  | VBool b =>
      if accepts_bool
      then match float_of_int (int_of_bool b) with
           | Some x => Return (VFloat x)
           | None => Raise (SetterError "scaled")
           end
      else Raise (SetterError "scaled")
  | VStr s =>
      match float_of_str s with
      | Some x => Return (VFloat x)
      | None => Raise (SetterError "scaled")
      end
  | VList _ | VDict _ => Raise (SetterError "scaled")
  end.

(** [Result(completion=c, score={"scaled": v})], the one shape in which
    the module calls the constructor: the score dictionary becomes a
    [Score] through the [scaled] setter. *)
Definition Result_init (c : bool) (v : value) : outcome Result :=
  scaled ← Score_scaled v;
  mret {| completion := c; score := {[ "scaled" := scaled ]} |}.

End Constructors.

End tincan.

(** ** The module *)

Definition XAPI_ACTIVITY_LESSON : string :=
  "http://adlnet.gov/expapi/activities/lesson".

(** The classes the module defines. *)
Inductive transformer : Type :=
| BaseCompletionTransformer
| ModuleCompletionTransformer
| LessonCompletionTransformer
| CourseCompletionTransformer
| BaseProgressTransformer
| ModuleProgressTransformer
| LessonProgressTransformer
| CourseProgressTransformer.

#[global] Instance transformer_eq_dec : EqDecision transformer.
Proof. solve_decision. Defined.

(** The classes of this module on the method resolution order of a class,
    the class itself first; [XApiTransformer] ends every one of them. *)
Definition mro (cls : transformer) : list transformer :=
  match cls with
  | BaseCompletionTransformer => [BaseCompletionTransformer]
  | ModuleCompletionTransformer =>
      [ModuleCompletionTransformer; BaseCompletionTransformer]
  | LessonCompletionTransformer =>
      [LessonCompletionTransformer; ModuleCompletionTransformer;
       BaseCompletionTransformer]
  | CourseCompletionTransformer =>
      [CourseCompletionTransformer; BaseCompletionTransformer]
  | BaseProgressTransformer => [BaseProgressTransformer]
  | ModuleProgressTransformer =>
      [ModuleProgressTransformer; BaseProgressTransformer]
  | LessonProgressTransformer =>
      [LessonProgressTransformer; ModuleProgressTransformer;
       BaseProgressTransformer]
  | CourseProgressTransformer =>
      [CourseProgressTransformer; BaseProgressTransformer]
  end.

(** Attribute lookup on a class: the first class on the resolution order
    whose body assigns the attribute. *)
Fixpoint lookup_mro {A} (own : transformer -> option A)
  (order : list transformer) : option A :=
  match order with
  | [] => None
  | cls :: order' =>
      match own cls with
      | Some a => Some a
      | None => lookup_mro own order'
      end
  end.

(** What a class body binds a name to: a plain value, or a function under
    [@cached_property]. *)
Inductive class_attr : Type :=
| Plain (v : value)
| CachedProperty (func : value -> outcome value).

(** The registry: every [@XApiTransformersRegistry.register(key)] line. *)
Definition registrations : list (string * transformer) :=
  [ ("openedx.completion_aggregator.completion.chapter",
     ModuleCompletionTransformer);
    ("openedx.completion_aggregator.completion.sequential",
     ModuleCompletionTransformer);
    ("openedx.completion_aggregator.completion.vertical",
     LessonCompletionTransformer);
    ("openedx.completion_aggregator.completion.course",
     CourseCompletionTransformer);
    ("openedx.completion_aggregator.progress.chapter",
     ModuleProgressTransformer);
    ("openedx.completion_aggregator.progress.sequential",
     ModuleProgressTransformer);
    ("openedx.completion_aggregator.progress.vertical",
     LessonProgressTransformer);
    ("openedx.completion_aggregator.progress.course",
     CourseProgressTransformer) ].

Definition registry : gmap string transformer := list_to_map registrations.

(** The two families of event-type keys. *)
Definition completion_key (key : string) : bool :=
  String.prefix "openedx.completion_aggregator.completion." key.
Definition progress_key (key : string) : bool :=
  String.prefix "openedx.completion_aggregator.progress." key.

Section Transformers.

Context {C : constants.t} {X : XApiTransformer.t} {T : tincan.t}.

(** *** Class bodies *)

(** [_verb], assigned by the two base classes. *)
Definition own__verb (cls : transformer) : option Verb :=
  match cls with
  | BaseCompletionTransformer =>
      Some {| verb_id := constants.XAPI_VERB_COMPLETED;
              verb_display := {[ constants.EN := constants.COMPLETED ]} |}
  | BaseProgressTransformer =>
      Some {| verb_id := constants.XAPI_VERB_PROGRESSED;
              verb_display := {[ constants.EN := constants.PROGRESSED ]} |}
  | _ => None
  end.

(** [object_type], assigned by every class; the lesson classes read the
    framework constant with [getattr(constants, "XAPI_ACTIVITY_LESSON",
    XAPI_ACTIVITY_LESSON)]. *)
Definition own_object_type (cls : transformer) : option class_attr :=
  match cls with
  | BaseCompletionTransformer | BaseProgressTransformer => Some (Plain VNone)
  | ModuleCompletionTransformer | ModuleProgressTransformer =>
      Some (Plain (VStr constants.XAPI_ACTIVITY_MODULE))
  | LessonCompletionTransformer | LessonProgressTransformer =>
      Some (Plain (VStr (default XAPI_ACTIVITY_LESSON
                           constants.XAPI_ACTIVITY_LESSON)))
  | CourseCompletionTransformer | CourseProgressTransformer =>
      Some (Plain (VStr constants.XAPI_ACTIVITY_COURSE))
  end.

(** The four functions under [@cached_property]. *)
Definition ModuleCompletionTransformer_object_id (event : value)
  : outcome value :=
  block_id ← XApiTransformer.get_data event "data.block_id" true;
  mret (XApiTransformer.get_object_iri "xblock" block_id).

Definition CourseCompletionTransformer_object_id (event : value)
  : outcome value :=
  course_id ← XApiTransformer.get_data event "data.course_id" true;
  mret (XApiTransformer.get_object_iri "courses" course_id).

Definition ModuleProgressTransformer_object_id (event : value)
  : outcome value :=
  block_id ← XApiTransformer.get_data event "data.block_id" false;
  mret (XApiTransformer.get_object_iri "xblock" block_id).

Definition CourseProgressTransformer_object_id (event : value)
  : outcome value :=
  course_id ← XApiTransformer.get_data event "data.course_id" false;
  mret (XApiTransformer.get_object_iri "courses" course_id).

(** [object_id]: [None] in the completion base class, a cached property in
    the module and course classes; the lesson classes and the progress
    base class assign nothing. *)
Definition own_object_id (cls : transformer) : option class_attr :=
  match cls with
  | BaseCompletionTransformer => Some (Plain VNone)
  | ModuleCompletionTransformer =>
      Some (CachedProperty ModuleCompletionTransformer_object_id)
  | CourseCompletionTransformer =>
      Some (CachedProperty CourseCompletionTransformer_object_id)
  | ModuleProgressTransformer =>
      Some (CachedProperty ModuleProgressTransformer_object_id)
  | CourseProgressTransformer =>
      Some (CachedProperty CourseProgressTransformer_object_id)
  | LessonCompletionTransformer | LessonProgressTransformer
  | BaseProgressTransformer => None
  end.

(** [additional_fields] *)
Definition own_additional_fields (cls : transformer) : option (list string) :=
  match cls with
  | BaseProgressTransformer => Some ["result"]
  | _ => None
  end.

(** *** Reading an attribute of [self]

    [self.name] on an instance of [cls] holding [event]: an entry of the
    instance [__dict__] comes first; otherwise the class attribute found
    along the resolution order. A plain attribute is returned as it is. A
    cached property calls its function and, when that returns, stores the
    value in the instance [__dict__] under [name] before returning it; when
    the function raises nothing is stored. *)
Definition getattr (own : transformer -> option class_attr) (name : string)
  (cls : transformer) (event : value) : M value :=
  fun d =>
    match d !! name with
    | Some v => (Return v, d)
    | None =>
        match lookup_mro own (mro cls) with
        | Some (Plain v) => (Return v, d)
        | Some (CachedProperty func) =>
            match func event with
            | Return v => (Return v, <[name := v]> d)
            | Raise e => (Raise e, d)
            end
        | None => (Raise (AttributeError name), d)
        end
    end.

Definition object_type : transformer -> value -> M value :=
  getattr own_object_type "object_type".

Definition object_id : transformer -> value -> M value :=
  getattr own_object_id "object_id".

Definition _verb (cls : transformer) : option Verb :=
  lookup_mro own__verb (mro cls).

Definition additional_fields (cls : transformer) : list string :=
  default [] (lookup_mro own_additional_fields (mro cls)).

(** *** Methods

    [get_object] is embedded as the function [@openedx_filter] wraps; the
    filter pipeline that may post-process its result belongs to the
    framework. *)

Definition BaseCompletionTransformer_get_object
  (cls : transformer) (event : value) : M Activity :=
  ty ← object_type cls event;
  if negb (truthy ty) then raise NotImplementedError else
  oid ← object_id cls event;
  if negb (truthy oid) then raise NotImplementedError else
  oid' ← object_id cls event;
  ty' ← object_type cls event;
  mret {| activity_id := oid';
          activity_definition := {| definition_type := ty' |} |}.

Definition BaseProgressTransformer_get_object
  (cls : transformer) (event : value) : M Activity :=
  ty ← object_type cls event;
  if negb (truthy ty) then raise NotImplementedError else
  oid ← object_id cls event;
  ty' ← object_type cls event;
  mret {| activity_id := oid;
          activity_definition := {| definition_type := ty' |} |}.

Definition BaseProgressTransformer_get_result (event : value) : M Result :=
  p ← lift (XApiTransformer.get_data event "data.percent" false);
  let progress := or_ p (VInt 0) in
  p' ← lift (XApiTransformer.get_data event "data.percent" false);
  lift (tincan.Result_init (eq_float progress F1) (or_ p' (VInt 0))).

(** Both course classes return [None] whatever the event holds. *)
Definition CourseCompletionTransformer_get_context_activities
  (event : value) : outcome value :=
  Return VNone.

Definition CourseProgressTransformer_get_context_activities
  (event : value) : outcome value :=
  Return VNone.

Definition own_get_object (cls : transformer)
  : option (transformer -> value -> M Activity) :=
  match cls with
  | BaseCompletionTransformer => Some BaseCompletionTransformer_get_object
  | BaseProgressTransformer => Some BaseProgressTransformer_get_object
  | _ => None
  end.

Definition own_get_result (cls : transformer) : option (value -> M Result) :=
  match cls with
  | BaseProgressTransformer => Some BaseProgressTransformer_get_result
  | _ => None
  end.

Definition own_get_context_activities (cls : transformer)
  : option (value -> outcome value) :=
  match cls with
  | CourseCompletionTransformer =>
      Some CourseCompletionTransformer_get_context_activities
  | CourseProgressTransformer =>
      Some CourseProgressTransformer_get_context_activities
  | _ => None
  end.

(** *** Method calls on an instance of [cls] *)

Definition get_object (cls : transformer) (event : value) : M Activity :=
  match lookup_mro own_get_object (mro cls) with
  | Some method => method cls event
  | None => raise (AttributeError "get_object")
  end.

(** The completion classes define no [get_result]. *)
Definition get_result (cls : transformer) : option (value -> M Result) :=
  lookup_mro own_get_result (mro cls).

(** A class that does not override [get_context_activities] inherits the
    framework's. *)
Definition get_context_activities (cls : transformer) (event : value)
  : outcome value :=
  match lookup_mro own_get_context_activities (mro cls) with
  | Some method => method event
  | None => XApiTransformer.get_context_activities event
  end.

(** *** Notions the statements below use *)

(** The [object_type] the class of an instance provides. *)
Definition class_object_type (cls : transformer) : value :=
  match lookup_mro own_object_type (mro cls) with
  | Some (Plain v) => v
  | _ => VNone
  end.

(** The [object_type] an instance reads: its own entry if it has one, else
    its class's. *)
Definition instance_object_type (cls : transformer) (d : attrs) : value :=
  default (class_object_type cls) (d !! "object_type").

(** The verbs the two families are expected to carry. *)
Definition completed : Verb :=
  {| verb_id := constants.XAPI_VERB_COMPLETED;
     verb_display := {[ constants.EN := constants.COMPLETED ]} |}.

Definition progressed : Verb :=
  {| verb_id := constants.XAPI_VERB_PROGRESSED;
     verb_display := {[ constants.EN := constants.PROGRESSED ]} |}.

End Transformers.

(** [issubclass(cls, base)] for classes of this module. *)
Definition issubclass (cls base : transformer) : bool :=
  bool_decide (base ∈ mro cls).

(** The classes the registry holds: every class but the two bases. *)
Definition registered (cls : transformer) : bool :=
  bool_decide (cls ∈ registrations.*2).

(** The namespace and payload field of each class with a cached
    [object_id], and whether the field is required. *)
Definition id_source (cls : transformer) : option (string * string * bool) :=
  match cls with
  | ModuleCompletionTransformer | LessonCompletionTransformer =>
      Some ("xblock", "data.block_id", true)
  | CourseCompletionTransformer => Some ("courses", "data.course_id", true)
  | ModuleProgressTransformer | LessonProgressTransformer =>
      Some ("xblock", "data.block_id", false)
  | CourseProgressTransformer => Some ("courses", "data.course_id", false)
  | BaseCompletionTransformer | BaseProgressTransformer => None
  end.

(** The percent a progress event carries, [None] when it carries none. *)
Definition percent_of (event : value) : value :=
  default VNone (XApiTransformer.get_value_from_dotted_path event "data.percent").

(** Two outcomes of [get_object] that differ at most in the type of the
    activity: the same [__dict__] afterwards, and either the same exception
    or activities with the same identifier. *)
Definition agree_up_to_type (r1 r2 : outcome Activity * attrs) : Prop :=
  r1.2 = r2.2
  ∧ match r1.1, r2.1 with
    | Return a1, Return a2 => activity_id a1 = activity_id a2
    | Raise e1, Raise e2 => e1 = e2
    | _, _ => False
    end.


(** The last dotted component of an event-type key names the kind of block
    the event is about. *)
Definition block_kind (key : string) : string :=
  default "" (last (split_dots key)).

Section Granularity.

Context {C : constants.t}.

(** The activity type the docstrings give each kind of block: a section
    ([chapter]) or subsection ([sequential]) is a module, a unit
    ([vertical]) a lesson, a course a course. *)
Definition kind_object_type (kind : string) : option value :=
  if String.eqb kind "chapter" || String.eqb kind "sequential"
  then Some (VStr constants.XAPI_ACTIVITY_MODULE)
  else if String.eqb kind "vertical"
  then Some (VStr (default XAPI_ACTIVITY_LESSON
                     constants.XAPI_ACTIVITY_LESSON))
  else if String.eqb kind "course"
  then Some (VStr constants.XAPI_ACTIVITY_COURSE)
  else None.

End Granularity.

(** The numbers of Python: [bool], [int] and [float]. *)
Definition is_number (v : value) : bool :=
  match v with
  | VBool _ | VInt _ | VFloat _ => true
  | VNone | VStr _ | VList _ | VDict _ => false
  end.

(** The two classes that override [get_context_activities]. *)
Definition overrides_context_activities (cls : transformer) : bool :=
  bool_decide (cls ∈ [CourseCompletionTransformer; CourseProgressTransformer]).

(** Every class of the module is below one of the two base classes. *)
Definition completion_class (cls : transformer) : bool :=
  issubclass cls BaseCompletionTransformer.
Definition progress_class (cls : transformer) : bool :=
  issubclass cls BaseProgressTransformer.

(** ** A sample framework

    Values in the shape the framework publishes them, for running the
    transformers on concrete events. *)

Module Sample.

Definition consts : constants.t := {|
  constants.XAPI_VERB_COMPLETED := "http://adlnet.gov/expapi/verbs/completed";
  constants.COMPLETED := "completed";
  constants.XAPI_VERB_PROGRESSED := "http://adlnet.gov/expapi/verbs/progressed";
  constants.PROGRESSED := "progressed";
  constants.EN := "en";
  constants.XAPI_ACTIVITY_MODULE := "http://adlnet.gov/expapi/activities/module";
  constants.XAPI_ACTIVITY_COURSE := "http://adlnet.gov/expapi/activities/course";
  constants.XAPI_ACTIVITY_LESSON := Some "http://adlnet.gov/expapi/activities/lesson";
|}.



(** [str(v)] as the IRI formats an identifier: exact for a string, an int
    and a bool; a float, a list and a dictionary are rendered by the name
    of their type. *)
Definition str (v : value) : string :=
  match v with
  | VNone => "None"
  | VBool b => if b then "True" else "False"
  | VInt n => pretty n
  | VFloat _ => "float"
  | VStr s => s
  | VList _ => "list"
  | VDict _ => "dict"
  end.

(** An IRI under a root URL: [None] for the identifier [None], the
    formatted string for any other. *)
Definition iri (ns : string) (v : value) : value :=
  match v with
  | VNone => VNone
  | _ => VStr ("https://lms.example.com/" +:+ ns +:+ "/" +:+ str v)
  end.

Definition base : XApiTransformer.t := {|
  XApiTransformer.get_object_iri := iri;
  XApiTransformer.get_context_activities := fun event =>
    Return (VDict {[ "parent" := VList [VStr "course"] ]});
|}.

(** [{"data": {"block_id": "b1"}}] *)
Definition event_block : value :=
  VDict {[ "data" := VDict {[ "block_id" := VStr "b1" ]} ]}.

(** [{"data": {"course_id": "c1"}}] *)
Definition event_course : value :=
  VDict {[ "data" := VDict {[ "course_id" := VStr "c1" ]} ]}.

(** [{"data": {}}] *)
Definition event_empty : value := VDict {[ "data" := VDict ∅ ]}.

(** [{"data": {"percent": p}}] *)
Definition event_percent (p : value) : value :=
  VDict {[ "data" := VDict {[ "percent" := p ]} ]}.

(** [{"data": {"block_id": "b1", "course_id": "c1", "percent": p}}] *)
Definition event_full (p : value) : value :=
  VDict {[ "data" := VDict (<["block_id" := VStr "b1"]>
                             (<["course_id" := VStr "c1"]>
                                {[ "percent" := p ]})) ]}.

(** The float [1.5]. *)
Definition F1_5 : spec_float := S754_finite false 6755399441055744 (-52).

(** The float [2.0 ** 53]. *)
Definition F2_53 : spec_float := S754_finite false 4503599627370496 1.

(** The decimal digits of a string as a number, [None] when some
    character is no digit. *)
Fixpoint digits (s : string) (acc : Z) : option Z :=
  match s with
  | EmptyString => Some acc
  | String c s' =>
      let n := Z.of_nat (nat_of_ascii c) in
      if (48 <=? n)%Z && (n <=? 57)%Z
      then digits s' (10 * acc + (n - 48))%Z
      else None
  end.

(** The binary64 number nearest to [n / d], ties to even, for [0 < n] and
    [0 < d]: the quotient is taken with more than 64 bits, its last bit
    set when the division is inexact, and then rounded. *)
Definition nearest (n d : Z) : spec_float :=
  let s := (Z.log2_up d + 64)%Z in
  let q := (n * 2 ^ s / d)%Z in
  let m := if ((n * 2 ^ s) mod d =? 0)%Z then q else Z.lor q 1 in
  binary_normalize 53 1024 m (- s) false.

(** [float(s)] for the plain decimal literals [digits] and
    [digits.digits]. Python's parser takes more spellings (signs,
    exponents, underscores, [inf], [nan], blanks around the number); this
    sample takes none of them. *)
Definition float_of_decimal (s : string) : option spec_float :=
  match split_dots s with
  | [whole] =>
      if String.eqb whole "" then None
      else n ← digits whole 0;
           Some (if (n =? 0)%Z then F0 else nearest n 1)
  | [whole; fraction] =>
      if String.eqb whole "" && String.eqb fraction "" then None
      else n ← digits (whole +:+ fraction) 0;
           Some (if (n =? 0)%Z then F0
                 else nearest n (10 ^ Z.of_nat (String.length fraction)))
  | _ => None
  end.

(** A tincan whose [scaled] setter converts a [bool]. *)
Definition python : tincan.t := {|
  tincan.float_of_str := float_of_decimal;
  tincan.accepts_bool := true;
|}.

End Sample.

(** ** Facts about Python values *)

(** Equal finite floats have the same sign, mantissa and exponent. *)
Lemma SFeqb_finite (s s' : bool) (m m' : positive) (e e' : Z) :
  SFeqb (S754_finite s m e) (S754_finite s' m' e') = true →
  s = s' ∧ m = m' ∧ e = e'.
Proof.
  unfold SFeqb, SFcompare.
  destruct s, s'; try discriminate;
    destruct (Z.compare_spec e e') as [->| |]; try discriminate;
    fold (Pos.compare m m');
    destruct (Pos.compare_spec m m') as [->| |]; try discriminate; done.
Qed.

Lemma float_eq_F1 (y : spec_float) : SFeqb y F1 = true ↔ y = F1.
Proof.
  split; [|intros ->; reflexivity].
  destruct y as [s| s| |s m e].
  - destruct s; discriminate.
  - destruct s; discriminate.
  - discriminate.
  - unfold F1. intros (-> & -> & ->)%SFeqb_finite. reflexivity.
Qed.

Lemma int_eq_F1 (n : Z) : float_eq_int F1 n = true ↔ n = 1%Z.
Proof.
  unfold float_eq_int, F1.
  change (0 <=? -52)%Z with false. cbv iota.
  rewrite Z.eqb_eq. change (2 ^ (- (-52)))%Z with 4503599627370496%Z. lia.
Qed.

(** [v == 1.0] holds for the float [1.0], the integer [1] and [True]. *)
Lemma eq_float_F1 (v : value) :
  eq_float v F1 = true ↔ v = VFloat F1 ∨ v = VInt 1 ∨ v = VBool true.
Proof.
  destruct v as [|b|n|y|s|xs|m]; cbn [eq_float];
    try (split; [discriminate|intros [|[|]]; discriminate]).
  - rewrite int_eq_F1. destruct b; cbn [int_of_bool]; split; try lia; eauto.
    intros [|[|]]; congruence.
  - rewrite int_eq_F1. split; [intros ->; eauto|intros [|[|]]; congruence].
  - rewrite float_eq_F1. split; [intros ->; eauto|intros [|[|]]; congruence].
Qed.

(** A falsy value is never equal to [1.0]. *)
Lemma falsy_not_F1 (v : value) : truthy v = false → eq_float v F1 = false.
Proof.
  intros Hf. destruct (eq_float v F1) eqn:Heq; [|reflexivity].
  apply eq_float_F1 in Heq as [->|[->| ->]]; discriminate.
Qed.

Lemma or_truthy (a b : value) : truthy a = true → or_ a b = a.
Proof. unfold or_. intros ->. reflexivity. Qed.

Lemma or_falsy (a b : value) : truthy a = false → or_ a b = b.
Proof. unfold or_. intros ->. reflexivity. Qed.

(** ** Facts about the payload accessor *)

Lemma get_data_present (event : value) (key : string) (required : bool)
  (v : value) :
  XApiTransformer.get_value_from_dotted_path event key = Some v →
  XApiTransformer.get_data event key required = Return v.
Proof. unfold XApiTransformer.get_data. intros ->. reflexivity. Qed.

Lemma get_data_absent_required (event : value) (key : string) :
  XApiTransformer.get_value_from_dotted_path event key = None →
  XApiTransformer.get_data event key true = Raise (ValueError key).
Proof. unfold XApiTransformer.get_data. intros ->. reflexivity. Qed.

Lemma get_data_absent_optional (event : value) (key : string) :
  XApiTransformer.get_value_from_dotted_path event key = None →
  XApiTransformer.get_data event key false = Return VNone.
Proof. unfold XApiTransformer.get_data. intros ->. reflexivity. Qed.

(** An accessor call that is not required never raises: it reads the value
    at the path, or [None]. *)
Lemma get_data_optional (event : value) (key : string) :
  XApiTransformer.get_data event key false =
  Return (default VNone (XApiTransformer.get_value_from_dotted_path event key)).
Proof.
  unfold XApiTransformer.get_data.
  destruct (XApiTransformer.get_value_from_dotted_path event key); reflexivity.
Qed.

(** ** The result of a progress transformer *)

Section ProgressResult.

Context {T : tincan.t}.

Lemma BaseProgressTransformer_get_result_eq (event : value) (d : attrs) :
  BaseProgressTransformer_get_result event d =
  (tincan.Result_init (eq_float (or_ (percent_of event) (VInt 0)) F1)
     (or_ (percent_of event) (VInt 0)), d).
Proof.
  unfold BaseProgressTransformer_get_result, percent_of.
  rewrite get_data_optional. reflexivity.
Qed.

Lemma get_result_progress (cls : transformer) :
  issubclass cls BaseProgressTransformer = true →
  get_result cls = Some BaseProgressTransformer_get_result.
Proof. destruct cls; intros H; try reflexivity; discriminate H. Qed.

(** The score of a falsy percent is the float zero. *)
Lemma Result_init_zero (c : bool) :
  tincan.Result_init c (VInt 0)
  = Return {| completion := c; score := {[ "scaled" := VFloat F0 ]} |}.
Proof. reflexivity. Qed.

(** A float is stored as it is. *)
Lemma Result_init_float (c : bool) (x : spec_float) :
  tincan.Result_init c (VFloat x)
  = Return {| completion := c; score := {[ "scaled" := VFloat x ]} |}.
Proof. reflexivity. Qed.

(** An int is converted to the nearest float, if there is one. *)
Lemma Result_init_int (c : bool) (n : Z) :
  tincan.Result_init c (VInt n)
  = match tincan.float_of_int n with
    | Some x =>
        Return {| completion := c; score := {[ "scaled" := VFloat x ]} |}
    | None => Raise (SetterError "scaled")
    end.
Proof.
  unfold tincan.Result_init, tincan.Score_scaled.
  by destruct (tincan.float_of_int n).
Qed.

(** Whatever [Result(...)] returns holds the flag it was given and a float
    score, the value [None] apart. *)
Lemma Result_init_returns (c : bool) (v : value) (r : Result) :
  v ≠ VNone →
  tincan.Result_init c v = Return r →
  completion r = c ∧ ∃ x, score r = {[ "scaled" := VFloat x ]}.
Proof.
  intros Hv. unfold tincan.Result_init, tincan.Score_scaled.
  destruct v as [|b|n|x|s|xs|m]; try done.
  - destruct tincan.accepts_bool; [|done].
    destruct (tincan.float_of_int _); [|done]. intros [= <-]. eauto.
  - destruct (tincan.float_of_int n); [|done]. intros [= <-]. eauto.
  - intros [= <-]. eauto.
  - destruct (tincan.float_of_str s); [|done]. intros [= <-]. eauto.
Qed.

Lemma or_zero_not_None (v : value) : or_ v (VInt 0) ≠ VNone.
Proof. unfold or_. destruct (truthy v) eqn:Hv; [by destruct v|done]. Qed.

(** C1, amended: for every progress transformer, [get_result] returns the
    score [0.0] and the flag false when [data.percent] is falsy or absent;
    for a truthy float it returns that float as the score, with the flag
    true exactly when the float is [1.0]; an int is converted to the
    nearest float, with the flag true exactly when the int is [1], and
    [get_result] raises when the int is too large for a float; whenever a
    result is returned the instance is unchanged, the score is a float and
    the flag is true exactly when the percent equals [1.0]. *)
Theorem progress_get_result_scaled_completion
  (cls : transformer) (event : value) (d : attrs) :
  issubclass cls BaseProgressTransformer = true →
  get_result cls = Some BaseProgressTransformer_get_result
  ∧ (truthy (percent_of event) = false →
     BaseProgressTransformer_get_result event d
     = (Return {| completion := false;
                  score := {[ "scaled" := VFloat F0 ]} |}, d))
  ∧ (∀ x, percent_of event = VFloat x → float_is_zero x = false →
     ∃ r, BaseProgressTransformer_get_result event d = (Return r, d)
          ∧ score r !! "scaled" = Some (VFloat x)
          ∧ (completion r = true ↔ x = F1))
  ∧ (∀ n, percent_of event = VInt n → n ≠ 0%Z →
     match tincan.float_of_int n with
     | Some x =>
         ∃ r, BaseProgressTransformer_get_result event d = (Return r, d)
              ∧ score r !! "scaled" = Some (VFloat x)
              ∧ (completion r = true ↔ n = 1%Z)
     | None =>
         BaseProgressTransformer_get_result event d
         = (Raise (SetterError "scaled"), d)
     end)
  ∧ (∀ r d', BaseProgressTransformer_get_result event d = (Return r, d') →
     d' = d
     ∧ (completion r = true ↔ eq_float (percent_of event) F1 = true)
     ∧ ∃ x, score r !! "scaled" = Some (VFloat x)).
Proof.
  intros Hcls. split; [by apply get_result_progress|].
  rewrite BaseProgressTransformer_get_result_eq.
  split; [|split; [|split]].
  - intros Hfalsy.
    by rewrite (or_falsy _ _ Hfalsy), Result_init_zero.
  - intros x Hx Hnonzero. rewrite Hx.
    rewrite or_truthy by (cbn [truthy]; by rewrite Hnonzero).
    rewrite Result_init_float. eexists. split; [reflexivity|].
    cbn [score completion eq_float]. split; [apply lookup_singleton_eq|].
    apply float_eq_F1.
  - intros n Hn Hnonzero. rewrite Hn.
    rewrite or_truthy
      by (cbn [truthy]; by apply negb_true_iff, Z.eqb_neq).
    rewrite Result_init_int. destruct (tincan.float_of_int n); [|done].
    eexists. split; [reflexivity|].
    cbn [score completion eq_float]. split; [apply lookup_singleton_eq|].
    apply int_eq_F1.
  - intros r d' Hreturn.
    destruct (tincan.Result_init _ _) as [r'|e] eqn:Hinit;
      [|discriminate Hreturn].
    injection Hreturn as -> ->. split; [done|].
    apply Result_init_returns in Hinit as [Hflag [x Hscore]];
      [|apply or_zero_not_None].
    split.
    + rewrite Hflag. unfold or_.
      destruct (truthy (percent_of event)) eqn:Htruthy; [done|].
      rewrite (falsy_not_F1 _ Htruthy).
      by rewrite (falsy_not_F1 (VInt 0)).
    + exists x. rewrite Hscore. apply lookup_singleton_eq.
Qed.

(** C2, amended: the score is [0.0] whenever the percent is absent or
    falsy, and a truthy float is passed through unchanged, without
    clamping; so a returned score lies in [[0,1]] whenever the payload's
    percent is absent, falsy, the int [1] or a float in [[0,1]]. *)
Theorem progress_scaled_in_range_when_percent_is
  (cls : transformer) (event : value) (d : attrs) :
  issubclass cls BaseProgressTransformer = true →
  get_result cls = Some BaseProgressTransformer_get_result
  ∧ (truthy (percent_of event) = false →
     ∃ r, BaseProgressTransformer_get_result event d = (Return r, d)
          ∧ score r !! "scaled" = Some (VFloat F0))
  ∧ (∀ x, percent_of event = VFloat x → float_is_zero x = false →
     ∃ r, BaseProgressTransformer_get_result event d = (Return r, d)
          ∧ score r !! "scaled" = Some (VFloat x))
  ∧ (truthy (percent_of event) = false
     ∨ percent_of event = VInt 1
     ∨ (∃ x, percent_of event = VFloat x
             ∧ in_unit_interval (VFloat x) = true) →
     ∃ r scaled,
       BaseProgressTransformer_get_result event d = (Return r, d)
       ∧ score r !! "scaled" = Some scaled
       ∧ in_unit_interval scaled = true).
Proof.
  intros Hcls. split; [by apply get_result_progress|].
  rewrite BaseProgressTransformer_get_result_eq.
  assert (∀ x, percent_of event = VFloat x →
            ∃ r, (tincan.Result_init
                    (eq_float (or_ (percent_of event) (VInt 0)) F1)
                    (or_ (percent_of event) (VInt 0)), d) = (Return r, d)
                 ∧ score r !! "scaled"
                   = Some (if float_is_zero x then VFloat F0 else VFloat x))
    as Hfloat.
  { intros x Hx. rewrite Hx. unfold or_. cbn [truthy].
    destruct (float_is_zero x); cbn [negb].
    - rewrite Result_init_zero. eexists. split; [reflexivity|].
      apply lookup_singleton_eq.
    - rewrite Result_init_float. eexists. split; [reflexivity|].
      apply lookup_singleton_eq. }
  assert (truthy (percent_of event) = false →
          ∃ r, (tincan.Result_init
                  (eq_float (or_ (percent_of event) (VInt 0)) F1)
                  (or_ (percent_of event) (VInt 0)), d) = (Return r, d)
               ∧ score r !! "scaled" = Some (VFloat F0)) as Hfalsy.
  { intros Hf. rewrite (or_falsy _ _ Hf), Result_init_zero.
    eexists. split; [reflexivity|]. apply lookup_singleton_eq. }
  split; [exact Hfalsy|]. split.
  - intros x Hx Hnonzero. destruct (Hfloat x Hx) as (r & Hr & Hs).
    rewrite Hnonzero in Hs. eauto.
  - intros [Hf|[Hone|(x & Hx & Hin)]].
    + destruct (Hfalsy Hf) as (r & Hr & Hs). by exists r, (VFloat F0).
    + rewrite Hone. rewrite or_truthy by reflexivity.
      rewrite Result_init_int.
      change (tincan.float_of_int 1) with (Some F1).
      eexists _, (VFloat F1). split; [reflexivity|].
      split; [apply lookup_singleton_eq|reflexivity].
    + destruct (Hfloat x Hx) as (r & Hr & Hs).
      eexists r, _. split; [exact Hr|]. split; [exact Hs|].
      by destruct (float_is_zero x).
Qed.

End ProgressResult.

(** C1, as stated, fails: on the int [2 ** 53 + 1] the score returned is
    the float [2.0 ** 53], which is not equal to the percent, and on the
    int [10 ** 400] no result is returned at all. *)
Lemma progress_get_result_converts_or_raises :
  truthy (VInt (2 ^ 53 + 1)) = true
  ∧ (∃ method r,
       @get_result Sample.python LessonProgressTransformer = Some method
       ∧ method (Sample.event_percent (VInt (2 ^ 53 + 1))) ∅ = (Return r, ∅)
       ∧ score r !! "scaled" = Some (VFloat Sample.F2_53)
       ∧ eq_float (VInt (2 ^ 53 + 1)) Sample.F2_53 = false)
  ∧ truthy (VInt (10 ^ 400)) = true
  ∧ (∃ method,
       @get_result Sample.python LessonProgressTransformer = Some method
       ∧ method (Sample.event_percent (VInt (10 ^ 400))) ∅
         = (Raise (SetterError "scaled"), ∅)).
Proof.
  split; [reflexivity|]. split; [|split; [by vm_compute|]].
  - eexists _, _. split; [reflexivity|].
    rewrite BaseProgressTransformer_get_result_eq.
    change (percent_of (Sample.event_percent (VInt (2 ^ 53 + 1))))
      with (VInt (2 ^ 53 + 1)).
    rewrite or_truthy by reflexivity. rewrite Result_init_int.
    assert (tincan.float_of_int (2 ^ 53 + 1) = Some Sample.F2_53) as ->
      by (by vm_compute).
    split; [reflexivity|]. split; [apply lookup_singleton_eq|].
    by vm_compute.
  - eexists. split; [reflexivity|].
    rewrite BaseProgressTransformer_get_result_eq.
    change (percent_of (Sample.event_percent (VInt (10 ^ 400))))
      with (VInt (10 ^ 400)).
    rewrite or_truthy by (by vm_compute). rewrite Result_init_int.
    assert (tincan.float_of_int (10 ^ 400) = None) as -> by (by vm_compute).
    reflexivity.
Qed.

(** The witness of C1 at [{"data": {"percent": 1.0}}] on the lesson class. *)
Lemma progress_get_result_scaled_completion_witness :
  issubclass LessonProgressTransformer BaseProgressTransformer = true
  ∧ percent_of (Sample.event_percent (VFloat F1)) = VFloat F1
  ∧ ∃ r,
      @BaseProgressTransformer_get_result Sample.python
        (Sample.event_percent (VFloat F1)) ∅ = (Return r, ∅)
      ∧ score r !! "scaled" = Some (VFloat F1)
      ∧ completion r = true.
Proof.
  split; [reflexivity|]. split; [reflexivity|].
  destruct (@progress_get_result_scaled_completion Sample.python
              LessonProgressTransformer
              (Sample.event_percent (VFloat F1)) ∅ eq_refl)
    as (_ & _ & Hfloat & _).
  destruct (Hfloat F1 eq_refl eq_refl) as (r & Hr & Hs & Hc).
  exists r. split; [exact Hr|]. split; [exact Hs|]. by apply Hc.
Defined.

(** C2, as stated, fails: at [{"data": {"percent": 1.5}}] the lesson progress
    transformer returns the score [1.5], which is outside [[0,1]]. *)
Lemma progress_scaled_out_of_range :
  ∃ method r,
    @get_result Sample.python LessonProgressTransformer = Some method ∧
    method (Sample.event_percent (VFloat Sample.F1_5)) ∅ = (Return r, ∅) ∧
    score r !! "scaled" = Some (VFloat Sample.F1_5) ∧
    in_unit_interval (VFloat Sample.F1_5) = false.
Proof.
  eexists _, _. split; [reflexivity|].
  rewrite BaseProgressTransformer_get_result_eq.
  change (percent_of (Sample.event_percent (VFloat Sample.F1_5)))
    with (VFloat Sample.F1_5).
  rewrite or_truthy by reflexivity. rewrite Result_init_float.
  split; [reflexivity|]. split; [apply lookup_singleton_eq|reflexivity].
Qed.

Lemma progress_scaled_in_range_when_percent_is_witness :
  issubclass CourseProgressTransformer BaseProgressTransformer = true
  ∧ truthy (percent_of Sample.event_empty) = false
  ∧ ∃ r scaled,
      @BaseProgressTransformer_get_result Sample.python
        Sample.event_empty ∅ = (Return r, ∅)
      ∧ score r !! "scaled" = Some scaled
      ∧ in_unit_interval scaled = true.
Proof.
  split; [reflexivity|]. split; [reflexivity|].
  destruct (@progress_scaled_in_range_when_percent_is Sample.python
              CourseProgressTransformer Sample.event_empty ∅ eq_refl)
    as (_ & _ & _ & Hin).
  apply Hin. by left.
Defined.

(** The [__dict__] of an instance that has just been constructed holds no
    attribute. *)
Lemma fresh_instance (name : string) : (∅ : attrs) !! name = None.
Proof. apply lookup_empty. Qed.

(** ** Reading [object_type] and [object_id] *)

Section Attributes.

Context {C : constants.t} {X : XApiTransformer.t}.

(** Reading [object_type] never raises and never writes. *)
Lemma object_type_eq (cls : transformer) (event : value) (d : attrs) :
  object_type cls event d =
  (Return (default (class_object_type cls) (d !! "object_type")), d).
Proof.
  unfold object_type, getattr, class_object_type.
  destruct (d !! "object_type"); [reflexivity|]. destruct cls; reflexivity.
Qed.

Lemma object_id_cached (cls : transformer) (event : value) (d : attrs)
  (v : value) :
  d !! "object_id" = Some v → object_id cls event d = (Return v, d).
Proof. unfold object_id, getattr. intros ->. reflexivity. Qed.

Lemma object_id_property (cls : transformer) (func : value → outcome value)
  (event : value) (d : attrs) :
  d !! "object_id" = None →
  lookup_mro own_object_id (mro cls) = Some (CachedProperty func) →
  object_id cls event d =
  match func event with
  | Return v => (Return v, <["object_id" := v]> d)
  | Raise e => (Raise e, d)
  end.
Proof. unfold object_id, getattr. intros -> ->. reflexivity. Qed.

Lemma object_id_present (cls : transformer) (ns key : string)
  (required : bool) (event : value) (d : attrs) (v : value) :
  id_source cls = Some (ns, key, required) →
  d !! "object_id" = None →
  XApiTransformer.get_value_from_dotted_path event key = Some v →
  object_id cls event d =
  (Return (XApiTransformer.get_object_iri ns v),
   <["object_id" := XApiTransformer.get_object_iri ns v]> d).
Proof.
  intros Hsrc Hd Hv.
  destruct cls; simplify_eq/=;
    (erewrite object_id_property; [|exact Hd|reflexivity]);
    cbv [ModuleCompletionTransformer_object_id
         CourseCompletionTransformer_object_id
         ModuleProgressTransformer_object_id
         CourseProgressTransformer_object_id];
    rewrite (get_data_present _ _ _ _ Hv); reflexivity.
Qed.

Lemma object_id_absent_required (cls : transformer) (ns key : string)
  (event : value) (d : attrs) :
  id_source cls = Some (ns, key, true) →
  d !! "object_id" = None →
  XApiTransformer.get_value_from_dotted_path event key = None →
  object_id cls event d = (Raise (ValueError key), d).
Proof.
  intros Hsrc Hd Hv.
  destruct cls; simplify_eq/=;
    (erewrite object_id_property; [|exact Hd|reflexivity]);
    cbv [ModuleCompletionTransformer_object_id
         CourseCompletionTransformer_object_id];
    rewrite (get_data_absent_required _ _ Hv); reflexivity.
Qed.

Lemma object_id_absent_optional (cls : transformer) (ns key : string)
  (event : value) (d : attrs) :
  id_source cls = Some (ns, key, false) →
  d !! "object_id" = None →
  XApiTransformer.get_value_from_dotted_path event key = None →
  object_id cls event d =
  (Return (XApiTransformer.get_object_iri ns VNone),
   <["object_id" := XApiTransformer.get_object_iri ns VNone]> d).
Proof.
  intros Hsrc Hd Hv.
  destruct cls; simplify_eq/=;
    (erewrite object_id_property; [|exact Hd|reflexivity]);
    cbv [ModuleProgressTransformer_object_id
         CourseProgressTransformer_object_id];
    rewrite (get_data_absent_optional _ _ Hv); reflexivity.
Qed.

(** A completion transformer whose identifier cannot be read raises:
    [get_object] catches nothing. *)
Lemma completion_get_object_propagates (cls : transformer) (event : value)
  (d : attrs) (e : exn) :
  issubclass cls BaseCompletionTransformer = true →
  object_id cls event d = (Raise e, d) →
  raised (get_object cls event d).1 = true.
Proof.
  intros Hcls Hid.
  assert (get_object cls event d =
          BaseCompletionTransformer_get_object cls event d) as ->
    by (destruct cls; try reflexivity; discriminate Hcls).
  unfold BaseCompletionTransformer_get_object.
  unfold mbind at 1, M_bind. rewrite object_type_eq.
  destruct (negb _); [reflexivity|].
  unfold mbind at 1, M_bind. rewrite Hid. reflexivity.
Qed.

End Attributes.

(** ** Deriving the object identifier *)

Section ObjectId.

Context {C : constants.t} {X : XApiTransformer.t}.


(** C4: for the module and lesson completion transformers, a payload that
    holds [data.block_id] gives the identifier
    [get_object_iri("xblock", block_id)]; a payload without it makes the
    derivation fail, and [get_object] with it. *)
Theorem module_lesson_completion_object_id
  (cls : transformer) (event : value) (d : attrs) :
  cls = ModuleCompletionTransformer ∨ cls = LessonCompletionTransformer →
  d !! "object_id" = None →
  (∀ block_id,
     XApiTransformer.get_value_from_dotted_path event "data.block_id"
       = Some block_id →
     object_id cls event d
       = (Return (XApiTransformer.get_object_iri "xblock" block_id),
          <["object_id" := XApiTransformer.get_object_iri "xblock" block_id]> d))
  ∧ (XApiTransformer.get_value_from_dotted_path event "data.block_id" = None →
     object_id cls event d = (Raise (ValueError "data.block_id"), d)
     ∧ raised (get_object cls event d).1 = true).
Proof.
  intros Hcls Hd.
  assert (id_source cls = Some ("xblock", "data.block_id", true)) as Hsrc
    by (destruct Hcls as [-> | ->]; reflexivity).
  assert (issubclass cls BaseCompletionTransformer = true) as Hsub
    by (destruct Hcls as [-> | ->]; reflexivity).
  split.
  - intros block_id Hv. by eapply object_id_present.
  - intros Habs.
    assert (object_id cls event d = (Raise (ValueError "data.block_id"), d))
      as Hid by (by eapply object_id_absent_required).
    split; [exact Hid|]. by eapply completion_get_object_propagates.
Qed.

(** A class that does not override [get_context_activities] answers with
    the framework's default. *)
Lemma get_context_activities_inherited (cls : transformer) (event : value) :
  cls ≠ CourseCompletionTransformer → cls ≠ CourseProgressTransformer →
  get_context_activities cls event
    = XApiTransformer.get_context_activities event.
Proof. destruct cls; intros ? ?; done. Qed.

(** C5: for every payload the course completion and the course progress
    transformer answer [get_context_activities] with [None]; the
    framework's default, which names the course as parent, is not used. *)
Theorem course_context_activities_none (event : value) :
  get_context_activities CourseCompletionTransformer event = Return VNone
  ∧ get_context_activities CourseProgressTransformer event = Return VNone.
Proof. split; reflexivity. Qed.

End ObjectId.



Lemma module_lesson_completion_object_id_witness :
  (∅ : attrs) !! "object_id" = None
  ∧ (@object_id Sample.base LessonCompletionTransformer Sample.event_block ∅).1
    = Return (VStr "https://lms.example.com/xblock/b1")
  ∧ (@object_id Sample.base ModuleCompletionTransformer Sample.event_empty ∅).1
    = Raise (ValueError "data.block_id").
Proof.
  split; [apply fresh_instance|].
  destruct (@module_lesson_completion_object_id Sample.consts Sample.base
              LessonCompletionTransformer Sample.event_block ∅
              (or_intror eq_refl) (fresh_instance _)) as [Hpresent _].
  destruct (@module_lesson_completion_object_id Sample.consts Sample.base
              ModuleCompletionTransformer Sample.event_empty ∅
              (or_introl eq_refl) (fresh_instance _)) as [_ Habsent].
  split.
  - rewrite (Hpresent (VStr "b1") eq_refl). reflexivity.
  - destruct (Habsent eq_refl) as [-> _]. reflexivity.
Defined.

(** ** The cache behind [@cached_property] *)

Section Cache.

Context {X : XApiTransformer.t}.

(** Reading [object_id] writes no attribute but [object_id]. *)
Lemma object_id_other_attrs (cls : transformer) (event : value) (d : attrs)
  (name : string) :
  name ≠ "object_id" → (object_id cls event d).2 !! name = d !! name.
Proof.
  intros Hne. unfold object_id, getattr.
  destruct (d !! "object_id"); [reflexivity|].
  destruct (lookup_mro own_object_id (mro cls)) as [[v|func]|];
    try reflexivity.
  destruct (func event); [|reflexivity]. cbn [snd].
  by rewrite lookup_insert_ne.
Qed.

(** A second read of [object_id] answers as the first did and leaves the
    [__dict__] as the first read left it. *)
Lemma object_id_twice (cls : transformer) (event : value) (d : attrs) :
  object_id cls event (object_id cls event d).2 = object_id cls event d.
Proof.
  unfold object_id, getattr.
  destruct (d !! "object_id") eqn:Hd; cbn [snd]; [by rewrite Hd|].
  destruct (lookup_mro own_object_id (mro cls)) as [[v|func]|] eqn:Hattr;
    cbn [snd]; try (by rewrite Hd).
  destruct (func event) eqn:Hfunc; cbn [snd].
  - by rewrite lookup_insert_eq.
  - by rewrite Hd.
Qed.

(** After a read that returned, the answer no longer depends on the
    payload. *)
Lemma object_id_reused (cls : transformer) (event event' : value)
  (d : attrs) (v : value) :
  (object_id cls event d).1 = Return v →
  object_id cls event' (object_id cls event d).2
    = (Return v, (object_id cls event d).2).
Proof.
  unfold object_id, getattr.
  destruct (d !! "object_id") eqn:Hd; cbn [fst snd].
  - intros [= ->]. by rewrite Hd.
  - destruct (lookup_mro own_object_id (mro cls)) as [[w|func]|] eqn:Hattr;
      cbn [fst snd].
    + intros [= ->]. by rewrite Hd.
    + destruct (func event) eqn:Hfunc; cbn [fst snd]; [|discriminate].
      intros [= ->]. by rewrite lookup_insert_eq.
    + discriminate.
Qed.



End Cache.

(** ** Verbs of the registered transformers *)

Section Verbs.

Context {C : constants.t}.

Lemma registry_lookup (key : string) (cls : transformer) :
  registry !! key = Some cls → (key, cls) ∈ registrations.
Proof. apply elem_of_list_to_map_2. Qed.

(** C7: for every registered event-type key, a completion key holds a
    transformer whose verb is the completed verb, and a progress key one
    whose verb is the progressed verb. *)
Theorem registered_verb (key : string) (cls : transformer) :
  registry !! key = Some cls →
  (completion_key key = true ∧ progress_key key = false
   ∧ _verb cls = Some completed)
  ∨ (progress_key key = true ∧ completion_key key = false
     ∧ _verb cls = Some progressed).
Proof.
  intros Hreg%registry_lookup. unfold registrations in Hreg.
  repeat (apply elem_of_cons in Hreg as [[= -> ->]|Hreg];
          [first [left; repeat split; reflexivity
                 |right; repeat split; reflexivity]|]).
  by apply elem_of_nil in Hreg.
Qed.

End Verbs.

Lemma registered_verb_witness :
  registry !! "openedx.completion_aggregator.completion.vertical"
    = Some LessonCompletionTransformer
  ∧ (∃ verb, @_verb Sample.consts LessonCompletionTransformer = Some verb
             ∧ verb_display verb !! "en" = Some "completed")
  ∧ registry !! "openedx.completion_aggregator.progress.course"
    = Some CourseProgressTransformer
  ∧ (∃ verb, @_verb Sample.consts CourseProgressTransformer = Some verb
             ∧ verb_display verb !! "en" = Some "progressed").
Proof.
  assert (registry !! "openedx.completion_aggregator.completion.vertical"
          = Some LessonCompletionTransformer) as Hlesson by reflexivity.
  assert (registry !! "openedx.completion_aggregator.progress.course"
          = Some CourseProgressTransformer) as Hcourse by reflexivity.
  split; [exact Hlesson|]. split; [|split; [exact Hcourse|]].
  - destruct (@registered_verb Sample.consts _ _ Hlesson)
      as [(_ & _ & Hv)|(Hk & _)]; [|discriminate Hk].
    eexists. split; [exact Hv|]. reflexivity.
  - destruct (@registered_verb Sample.consts _ _ Hcourse)
      as [(Hk & _)|(_ & _ & Hv)]; [discriminate Hk|].
    eexists. split; [exact Hv|]. reflexivity.
Defined.

(** ** [get_object] *)

Section GetObject.

Context {C : constants.t} {X : XApiTransformer.t}.

Lemma get_object_completion (cls : transformer) :
  issubclass cls BaseCompletionTransformer = true →
  get_object cls = BaseCompletionTransformer_get_object cls.
Proof. destruct cls; intros H; try reflexivity; discriminate H. Qed.

Lemma get_object_progress (cls : transformer) :
  issubclass cls BaseProgressTransformer = true →
  get_object cls = BaseProgressTransformer_get_object cls.
Proof. destruct cls; intros H; try reflexivity; discriminate H. Qed.

Lemma object_type_after_object_id (cls : transformer) (event : value)
  (d : attrs) :
  instance_object_type cls (object_id cls event d).2
    = instance_object_type cls d.
Proof.
  unfold instance_object_type. by rewrite object_id_other_attrs.
Qed.

(** The progress [get_object], read by read. *)
Lemma BaseProgressTransformer_get_object_eq (cls : transformer)
  (event : value) (d : attrs) :
  BaseProgressTransformer_get_object cls event d =
  if truthy (instance_object_type cls d) then
    match object_id cls event d with
    | (Return oid, d') =>
        (Return {| activity_id := oid;
                   activity_definition :=
                     {| definition_type := instance_object_type cls d |} |},
         d')
    | (Raise e, d') => (Raise e, d')
    end
  else (Raise NotImplementedError, d).
Proof.
  unfold BaseProgressTransformer_get_object.
  unfold mbind at 1, M_bind. rewrite object_type_eq.
  fold (instance_object_type cls d).
  destruct (truthy (instance_object_type cls d)); [|reflexivity].
  cbn [negb]. unfold mbind at 1, M_bind.
  pose proof (object_type_after_object_id cls event d) as Hty.
  destruct (object_id cls event d) as [[oid|e] d']; [|reflexivity].
  cbn [snd] in Hty. unfold mbind, M_bind, mret, M_ret.
  rewrite object_type_eq. fold (instance_object_type cls d').
  by rewrite Hty.
Qed.

(** The completion [get_object], read by read: the identifier is read
    twice, the second time from the cache. *)
Lemma BaseCompletionTransformer_get_object_eq (cls : transformer)
  (event : value) (d : attrs) :
  BaseCompletionTransformer_get_object cls event d =
  if truthy (instance_object_type cls d) then
    match object_id cls event d with
    | (Return oid, d') =>
        if truthy oid then
          (Return {| activity_id := oid;
                     activity_definition :=
                       {| definition_type := instance_object_type cls d |} |},
           d')
        else (Raise NotImplementedError, d')
    | (Raise e, d') => (Raise e, d')
    end
  else (Raise NotImplementedError, d).
Proof.
  unfold BaseCompletionTransformer_get_object.
  unfold mbind at 1, M_bind. rewrite object_type_eq.
  fold (instance_object_type cls d).
  destruct (truthy (instance_object_type cls d)); [|reflexivity].
  cbn [negb]. unfold mbind at 1, M_bind.
  pose proof (object_type_after_object_id cls event d) as Hty.
  pose proof (object_id_twice cls event d) as Htwice.
  destruct (object_id cls event d) as [[oid|e] d']; [|reflexivity].
  cbn [snd] in Hty, Htwice.
  destruct (truthy oid); [|reflexivity]. cbn [negb].
  unfold mbind at 1, M_bind. rewrite Htwice.
  unfold mbind, M_bind, mret, M_ret.
  rewrite object_type_eq. fold (instance_object_type cls d').
  by rewrite Hty.
Qed.

(** The progress classes never fail to read their identifier: the field
    is optional. *)
Lemma progress_object_id_returns (cls : transformer) (ns key : string)
  (event : value) (d : attrs) :
  id_source cls = Some (ns, key, false) →
  d !! "object_id" = None →
  let oid :=
    XApiTransformer.get_object_iri ns
      (default VNone (XApiTransformer.get_value_from_dotted_path event key)) in
  object_id cls event d = (Return oid, <["object_id" := oid]> d).
Proof.
  intros Hsrc Hd.
  destruct (XApiTransformer.get_value_from_dotted_path event key) as [v|]
    eqn:Hv; cbn [default].
  - by eapply object_id_present.
  - by eapply object_id_absent_optional.
Qed.

(** What [constants.configured] says of each class's [object_type]. *)
Lemma configured_truthy (cls : transformer) :
  constants.configured C = true →
  truthy (class_object_type cls) = false ↔
  cls = BaseCompletionTransformer ∨ cls = BaseProgressTransformer.
Proof.
  unfold constants.configured. intros [[Hm Hc]%andb_prop Hl]%andb_prop.
  destruct cls; cbn [class_object_type mro lookup_mro own_object_type truthy];
    try (split; [done|intros [|]; done]);
    try (rewrite ?Hm, ?Hc; split; [done|intros [|]; done]);
    try (split; [intros _; by eauto|done]).
  all: destruct constants.XAPI_ACTIVITY_LESSON; cbn [from_option id];
    [rewrite Hl|]; (split; [done|intros [|]; done]).
Qed.

End GetObject.

Section Specialization.

Context {C : constants.t} {X : XApiTransformer.t} {T : tincan.t}.

(** C6: a progress transformer whose payload lacks the identifier field
    returns an object, with the identifier the framework derives from an
    absent field ([None] when [get_object_iri] maps [None] to [None]);
    [get_object] raises [NotImplementedError] exactly when the object type
    is unconfigured, which among the progress classes is the base class
    alone: a registered progress transformer never raises. *)
Theorem progress_get_object_optional_identifier
  (cls : transformer) (event : value) (d : attrs) :
  constants.configured C = true →
  issubclass cls BaseProgressTransformer = true →
  d !! "object_type" = None →
  d !! "object_id" = None →
  (∀ ns key required,
     id_source cls = Some (ns, key, required) →
     XApiTransformer.get_value_from_dotted_path event key = None →
     ∃ a d',
       get_object cls event d = (Return a, d')
       ∧ activity_id a = XApiTransformer.get_object_iri ns VNone
       ∧ ((∀ ns', XApiTransformer.get_object_iri ns' VNone = VNone) →
          activity_id a = VNone))
  ∧ ((get_object cls event d).1 = Raise NotImplementedError
     ↔ truthy (class_object_type cls) = false)
  ∧ (truthy (class_object_type cls) = false
     ↔ cls = BaseProgressTransformer)
  ∧ (registered cls = true → raised (get_object cls event d).1 = false).
Proof.
  intros Hconf Hsub Hty Hid.
  rewrite (get_object_progress _ Hsub), BaseProgressTransformer_get_object_eq.
  unfold instance_object_type. rewrite Hty. cbn [from_option id].
  pose proof (configured_truthy cls Hconf) as Hbase.
  assert (truthy (class_object_type cls) = false
          ↔ cls = BaseProgressTransformer) as Hbase'.
  { rewrite Hbase. split; [intros [->| ->]; [discriminate Hsub|done]|eauto]. }
  assert (∀ ns key required, id_source cls = Some (ns, key, required) →
            required = false ∧ truthy (class_object_type cls) = true)
    as Hconcrete.
  { intros ns key required Hsrc.
    split; [destruct cls; try discriminate Hsub; by simplify_eq/=|].
    destruct (truthy (class_object_type cls)); [done|].
    destruct Hbase' as [Hb _]. rewrite (Hb eq_refl) in Hsrc.
    discriminate Hsrc. }
  split; [|split; [|split; [exact Hbase'|]]].
  - intros ns key required Hsrc Habs.
    destruct (Hconcrete _ _ _ Hsrc) as [-> ->].
    rewrite (progress_object_id_returns _ _ _ _ _ Hsrc Hid), Habs.
    cbn [from_option id]. eexists _, _. split; [reflexivity|].
    cbn [activity_id]. split; [reflexivity|]. intros Hnone. apply Hnone.
  - split.
    + destruct (truthy (class_object_type cls)) eqn:Htruthy; [|done].
      destruct (id_source cls) as [[[ns key] required]|] eqn:Hsrc.
      * destruct (Hconcrete _ _ _ eq_refl) as [-> _].
        by rewrite (progress_object_id_returns _ _ _ _ _ Hsrc Hid).
      * destruct cls; try discriminate Hsrc; discriminate Hsub || done.
    + by intros ->.
  - intros Hreg.
    destruct (id_source cls) as [[[ns key] required]|] eqn:Hsrc.
    + destruct (Hconcrete _ _ _ eq_refl) as [-> ->].
      by rewrite (progress_object_id_returns _ _ _ _ _ Hsrc Hid).
    + destruct cls; try discriminate Hsrc; discriminate Hreg.
Qed.

(** C9: the lesson transformers behave as the module transformers do,
    apart from the object type: the same verb, the same object identifier,
    the same result, context activities and additional fields, and a
    [get_object] that fails or returns alike. *)
Theorem lesson_behaves_as_module (event : value) (d : attrs) :
  constants.configured C = true →
  (_verb LessonCompletionTransformer = _verb ModuleCompletionTransformer
   ∧ _verb LessonProgressTransformer = _verb ModuleProgressTransformer)
  ∧ (object_id LessonCompletionTransformer event d
       = object_id ModuleCompletionTransformer event d
     ∧ object_id LessonProgressTransformer event d
       = object_id ModuleProgressTransformer event d)
  ∧ (get_result LessonCompletionTransformer
       = get_result ModuleCompletionTransformer
     ∧ get_result LessonProgressTransformer
       = get_result ModuleProgressTransformer)
  ∧ (get_context_activities LessonCompletionTransformer event
       = get_context_activities ModuleCompletionTransformer event
     ∧ get_context_activities LessonProgressTransformer event
       = get_context_activities ModuleProgressTransformer event)
  ∧ (additional_fields LessonCompletionTransformer
       = additional_fields ModuleCompletionTransformer
     ∧ additional_fields LessonProgressTransformer
       = additional_fields ModuleProgressTransformer)
  ∧ agree_up_to_type
      (get_object LessonCompletionTransformer event d)
      (get_object ModuleCompletionTransformer event d)
  ∧ agree_up_to_type
      (get_object LessonProgressTransformer event d)
      (get_object ModuleProgressTransformer event d).
Proof.
  intros Hconf.
  assert (∀ lesson module,
            truthy (class_object_type lesson) = true →
            truthy (class_object_type module) = true →
            truthy (instance_object_type lesson d)
              = truthy (instance_object_type module d)) as Hty.
  { intros lesson module Hl Hm. unfold instance_object_type.
    destruct (d !! "object_type"); cbn [from_option id]; congruence. }
  assert (∀ cls, cls ≠ BaseCompletionTransformer →
            cls ≠ BaseProgressTransformer →
            truthy (class_object_type cls) = true) as Hconcrete.
  { intros cls Hc Hp. destruct (truthy (class_object_type cls)) eqn:Ht;
      [done|]. apply (configured_truthy cls Hconf) in Ht as [|]; done. }
  do 5 (split; [split; reflexivity|]).
  split.
  - rewrite !get_object_completion by reflexivity.
    rewrite !BaseCompletionTransformer_get_object_eq.
    rewrite (Hty LessonCompletionTransformer ModuleCompletionTransformer)
      by (by apply Hconcrete).
    change (object_id LessonCompletionTransformer event d)
      with (object_id ModuleCompletionTransformer event d).
    destruct (truthy _); [|by split].
    destruct (object_id ModuleCompletionTransformer event d) as [[oid|e] d'];
      [|by split].
    destruct (truthy oid); by split.
  - rewrite !get_object_progress by reflexivity.
    rewrite !BaseProgressTransformer_get_object_eq.
    rewrite (Hty LessonProgressTransformer ModuleProgressTransformer)
      by (by apply Hconcrete).
    change (object_id LessonProgressTransformer event d)
      with (object_id ModuleProgressTransformer event d).
    destruct (truthy _); [|by split].
    destruct (object_id ModuleProgressTransformer event d) as [[oid|e] d'];
      by split.
Qed.



End Specialization.

Lemma progress_get_object_optional_identifier_witness :
  constants.configured Sample.consts = true
  ∧ issubclass LessonProgressTransformer BaseProgressTransformer = true
  ∧ (∃ a d',
       @get_object Sample.consts Sample.base LessonProgressTransformer
         Sample.event_empty ∅ = (Return a, d')
       ∧ activity_id a = VNone)
  ∧ raised (@get_object Sample.consts Sample.base LessonProgressTransformer
              Sample.event_empty ∅).1 = false.
Proof.
  split; [reflexivity|]. split; [reflexivity|].
  destruct (@progress_get_object_optional_identifier Sample.consts Sample.base
              LessonProgressTransformer Sample.event_empty ∅
              eq_refl eq_refl (fresh_instance _) (fresh_instance _))
    as (Hobject & _ & _ & Hregistered).
  split; [|apply Hregistered; reflexivity].
  destruct (Hobject "xblock" "data.block_id" false eq_refl eq_refl)
    as (a & d' & Hget & _ & Hnone).
  exists a, d'. split; [exact Hget|]. apply Hnone. intros ns'. reflexivity.
Defined.

Lemma lesson_behaves_as_module_witness :
  constants.configured Sample.consts = true
  ∧ agree_up_to_type
      (@get_object Sample.consts Sample.base LessonCompletionTransformer
         Sample.event_block ∅)
      (@get_object Sample.consts Sample.base ModuleCompletionTransformer
         Sample.event_block ∅)
  ∧ agree_up_to_type
      (@get_object Sample.consts Sample.base LessonProgressTransformer
         Sample.event_block ∅)
      (@get_object Sample.consts Sample.base ModuleProgressTransformer
         Sample.event_block ∅).
Proof.
  split; [reflexivity|].
  destruct (@lesson_behaves_as_module Sample.consts Sample.base
              Sample.python Sample.event_block ∅ eq_refl)
    as (_ & _ & _ & _ & _ & Hcompletion & Hprogress).
  split; [exact Hcompletion|exact Hprogress].
Defined.



(** * Further properties of the transformers *)

(** ** [get_object] and the cached identifier *)

Section GetObjectProperties.

Context {C : constants.t} {X : XApiTransformer.t}.

Lemma family (cls : transformer) :
  completion_class cls = true ∨ progress_class cls = true.
Proof. destruct cls; (by left) || (by right). Qed.

(** [get_object] of any class, read by read. *)
Lemma get_object_eq (cls : transformer) (event : value) (d : attrs) :
  get_object cls event d =
  if truthy (instance_object_type cls d) then
    match object_id cls event d with
    | (Return oid, d') =>
        if completion_class cls && negb (truthy oid)
        then (Raise NotImplementedError, d')
        else (Return {| activity_id := oid;
                        activity_definition :=
                          {| definition_type := instance_object_type cls d |} |},
              d')
    | (Raise e, d') => (Raise e, d')
    end
  else (Raise NotImplementedError, d).
Proof.
  destruct (family cls) as [Hc|Hp].
  - rewrite (get_object_completion _ Hc).
    rewrite BaseCompletionTransformer_get_object_eq, Hc.
    destruct (truthy _); [|done].
    destruct (object_id cls event d) as [[oid|e] d']; [|done].
    by destruct (truthy oid).
  - rewrite (get_object_progress _ Hp).
    rewrite BaseProgressTransformer_get_object_eq.
    assert (completion_class cls = false) as ->
      by (destruct cls; try reflexivity; discriminate Hp).
    done.
Qed.

(** X1: an instance whose object type is unconfigured (falsy) fails with
    [NotImplementedError] before the identifier is read: whatever the
    payload holds, no other failure is raised and nothing is cached. *)
Theorem get_object_unconfigured_type
  (cls : transformer) (event : value) (d : attrs) :
  truthy (instance_object_type cls d) = false →
  get_object cls event d = (Raise NotImplementedError, d).
Proof. intros Hty. by rewrite get_object_eq, Hty. Qed.

(** X2: on a fresh instance of a class with a configured type, a payload
    that holds the identifier field gives the activity with the identifier
    [get_object_iri(ns, field)] and the class's object type, and leaves the
    identifier cached; for a completion class the derived identifier has to
    be truthy. *)
Theorem get_object_returns_activity
  (cls : transformer) (ns key : string) (required : bool)
  (event : value) (d : attrs) (v : value) :
  id_source cls = Some (ns, key, required) →
  d !! "object_type" = None →
  d !! "object_id" = None →
  truthy (class_object_type cls) = true →
  XApiTransformer.get_value_from_dotted_path event key = Some v →
  (required = true → truthy (XApiTransformer.get_object_iri ns v) = true) →
  get_object cls event d =
  (Return {| activity_id := XApiTransformer.get_object_iri ns v;
             activity_definition :=
               {| definition_type := class_object_type cls |} |},
   <["object_id" := XApiTransformer.get_object_iri ns v]> d).
Proof.
  intros Hsrc Hty Hid Htruthy Hv Hiri.
  rewrite get_object_eq. unfold instance_object_type. rewrite Hty.
  cbn [from_option id]. rewrite Htruthy.
  rewrite (object_id_present _ _ _ _ _ _ _ Hsrc Hid Hv).
  destruct required.
  - by rewrite (Hiri eq_refl), andb_false_r.
  - assert (completion_class cls = false) as ->
      by (destruct cls; try reflexivity; discriminate Hsrc).
    done.
Qed.

(** X4: [get_object] memoizes the identifier it used: after a call that
    returned an activity, reading [object_id] on that instance gives the
    activity's identifier, whatever the payload holds by then. *)
Theorem get_object_caches_identifier
  (cls : transformer) (event event' : value) (d : attrs) (a : Activity) :
  (get_object cls event d).1 = Return a →
  object_id cls event' (get_object cls event d).2
    = (Return (activity_id a), (get_object cls event d).2).
Proof.
  rewrite get_object_eq.
  destruct (truthy (instance_object_type cls d)); [|discriminate].
  pose proof (object_id_reused cls event event' d) as Hreuse.
  destruct (object_id cls event d) as [[oid|e] d']; [|discriminate].
  cbn [fst snd] in Hreuse.
  destruct (completion_class cls && negb (truthy oid)); [discriminate|].
  cbn [fst snd]. intros [= <-]. cbn [activity_id]. by apply Hreuse.
Qed.

(** X5: an instance answers [get_object] from its cache: once a call has
    returned an activity, every later call on that instance returns the
    same activity and leaves the instance as it is, even when the payload
    has changed. *)
Theorem get_object_stable
  (cls : transformer) (event event' : value) (d : attrs) (a : Activity) :
  (get_object cls event d).1 = Return a →
  get_object cls event' (get_object cls event d).2
    = (Return a, (get_object cls event d).2).
Proof.
  rewrite (get_object_eq cls event d).
  destruct (truthy (instance_object_type cls d)) eqn:Hty; [|discriminate].
  pose proof (object_id_reused cls event event' d) as Hreuse.
  pose proof (object_type_after_object_id cls event d) as Hafter.
  destruct (object_id cls event d) as [[oid|e] d']; [|discriminate].
  cbn [fst snd] in Hreuse, Hafter.
  destruct (completion_class cls && negb (truthy oid)) eqn:Hguard;
    [discriminate|].
  cbn [fst snd]. intros [= <-].
  by rewrite get_object_eq, Hafter, Hty, (Hreuse oid eq_refl), Hguard.
Qed.

(** X6: [get_object] writes no attribute of the instance but [object_id]. *)
Theorem get_object_writes_only_object_id
  (cls : transformer) (event : value) (d : attrs) (name : string) :
  name ≠ "object_id" →
  (get_object cls event d).2 !! name = d !! name.
Proof.
  intros Hne. rewrite get_object_eq.
  destruct (truthy (instance_object_type cls d)); [|done].
  pose proof (object_id_other_attrs cls event d name Hne) as Hframe.
  destruct (object_id cls event d) as [[oid|e] d']; [|done].
  by destruct (completion_class cls && negb (truthy oid)).
Qed.

(** X7: a failure is not memoized: an [object_id] read that raises leaves
    the instance unchanged, so a later read derives the identifier from the
    payload it finds then. *)
Theorem object_id_failure_not_cached
  (cls : transformer) (event event' : value) (d : attrs) (e : exn) :
  (object_id cls event d).1 = Raise e →
  (object_id cls event d).2 = d
  ∧ object_id cls event' (object_id cls event d).2 = object_id cls event' d.
Proof.
  intros Hraise.
  assert ((object_id cls event d).2 = d) as Hsame.
  { revert Hraise. unfold object_id, getattr.
    destruct (d !! "object_id"); [done|].
    destruct (lookup_mro own_object_id (mro cls)) as [[v|func]|]; try done.
    by destruct (func event). }
  split; [exact Hsame|]. by rewrite Hsame.
Qed.

End GetObjectProperties.

(** ** Where the identifier comes from *)

Section IdentifierProperties.

Context {X : XApiTransformer.t}.

(** X8: on an instance with no cached identifier, the course transformers
    derive the identifier from [data.course_id] in the namespace
    ["courses"], and the module and lesson progress transformers from
    [data.block_id] in the namespace ["xblock"]; the value is cached. *)
Theorem object_id_namespaces
  (cls : transformer) (event : value) (d : attrs) (v : value) :
  d !! "object_id" = None →
  (cls = CourseCompletionTransformer ∨ cls = CourseProgressTransformer →
   XApiTransformer.get_value_from_dotted_path event "data.course_id" = Some v →
   object_id cls event d
     = (Return (XApiTransformer.get_object_iri "courses" v),
        <["object_id" := XApiTransformer.get_object_iri "courses" v]> d))
  ∧ (cls = ModuleProgressTransformer ∨ cls = LessonProgressTransformer →
     XApiTransformer.get_value_from_dotted_path event "data.block_id" = Some v →
     object_id cls event d
       = (Return (XApiTransformer.get_object_iri "xblock" v),
          <["object_id" := XApiTransformer.get_object_iri "xblock" v]> d)).
Proof.
  intros Hd. split.
  - intros [-> | ->] Hv; by eapply object_id_present.
  - intros [-> | ->] Hv; by eapply object_id_present.
Qed.

(** X9: the identifier of a class depends on the payload through its own
    field alone: two payloads that agree on that field give the same
    outcome and the same instance afterwards, whatever else they hold. *)
Theorem object_id_depends_on_own_field
  (cls : transformer) (ns key : string) (required : bool)
  (event event' : value) (d : attrs) :
  id_source cls = Some (ns, key, required) →
  XApiTransformer.get_value_from_dotted_path event key
    = XApiTransformer.get_value_from_dotted_path event' key →
  object_id cls event d = object_id cls event' d.
Proof.
  intros Hsrc Hagree.
  destruct (d !! "object_id") as [cached|] eqn:Hd.
  - by rewrite !(object_id_cached _ _ _ _ Hd).
  - destruct (XApiTransformer.get_value_from_dotted_path event key) as [v|]
      eqn:Hv; symmetry in Hagree.
    + by rewrite (object_id_present _ _ _ _ _ _ _ Hsrc Hd Hv),
        (object_id_present _ _ _ _ _ _ _ Hsrc Hd Hagree).
    + destruct required.
      * by rewrite (object_id_absent_required _ _ _ _ _ Hsrc Hd Hv),
          (object_id_absent_required _ _ _ _ _ Hsrc Hd Hagree).
      * by rewrite (object_id_absent_optional _ _ _ _ _ Hsrc Hd Hv),
          (object_id_absent_optional _ _ _ _ _ Hsrc Hd Hagree).
Qed.

(** X10: only the two course classes suppress the context activities:
    every other class answers with the framework's default, its failures
    included. *)
Theorem context_activities_by_class (cls : transformer) (event : value) :
  get_context_activities cls event =
  if overrides_context_activities cls then Return VNone
  else XApiTransformer.get_context_activities event.
Proof. by destruct cls. Qed.

End IdentifierProperties.

(** ** The result of a progress event *)

Section ResultProperties.

Context {T : tincan.t}.

Lemma get_result_defined (cls : transformer) (method : value → M Result) :
  get_result cls = Some method →
  progress_class cls = true ∧ method = BaseProgressTransformer_get_result.
Proof. destruct cls; intros [= <-] || intros [=]; done. Qed.

(** X11: the outcome of [get_result] is a function of [data.percent]
    alone: every progress class answers alike, result or exception, on
    payloads that carry the same percent, and the call leaves the instance
    untouched. *)
Theorem get_result_depends_on_percent_only
  (cls cls' : transformer) (event event' : value) (d d' : attrs) :
  progress_class cls = true →
  progress_class cls' = true →
  percent_of event = percent_of event' →
  ∃ method method',
    get_result cls = Some method
    ∧ get_result cls' = Some method'
    ∧ (method event d).1 = (method' event' d').1
    ∧ (method event d).2 = d
    ∧ (method' event' d').2 = d'.
Proof.
  intros Hcls Hcls' Hpercent. eexists _, _.
  split; [by apply get_result_progress|].
  split; [by apply get_result_progress|].
  rewrite !BaseProgressTransformer_get_result_eq, Hpercent. done.
Qed.

(** X12: a result flagged complete carries the score one: when
    [completion] is true the scaled score is [1.0], [1] or [True], and so
    lies in the unit interval. *)
Theorem completion_implies_score_one
  (cls : transformer) (method : value → M Result) (event : value)
  (d d' : attrs) (r : Result) :
  get_result cls = Some method →
  method event d = (Return r, d') →
  completion r = true →
  ∃ scaled,
    score r !! "scaled" = Some scaled
    ∧ (scaled = VFloat F1 ∨ scaled = VInt 1 ∨ scaled = VBool true)
    ∧ in_unit_interval scaled = true.
Proof.
  intros [_ ->]%get_result_defined.
  rewrite BaseProgressTransformer_get_result_eq.
  destruct (tincan.Result_init _ _) as [r'|e] eqn:Hinit; [|discriminate].
  intros [= <- _] Hflag. exists (VFloat F1).
  pose proof Hinit as [Hc _]%Result_init_returns; [|apply or_zero_not_None].
  rewrite Hflag in Hc. symmetry in Hc. apply eq_float_F1 in Hc.
  revert Hinit. unfold tincan.Result_init, tincan.Score_scaled.
  destruct Hc as [-> |[-> | ->]].
  - intros [= <-]. split; [apply lookup_singleton_eq|]. by eauto.
  - change (tincan.float_of_int 1) with (Some F1).
    intros [= <-]. split; [apply lookup_singleton_eq|]. by eauto.
  - destruct tincan.accepts_bool; [|discriminate].
    change (tincan.float_of_int (int_of_bool true)) with (Some F1).
    intros [= <-]. split; [apply lookup_singleton_eq|]. by eauto.
Qed.

(** X13: the module does not validate the type of [data.percent]: a truthy
    list or dictionary makes [get_result] raise, and a non-empty string is
    handed to [float()]: the call raises when the string does not parse,
    and otherwise returns the parsed float as the score with the flag
    false, even when the score is one. *)
Theorem non_numeric_percent_converted_or_refused
  (cls : transformer) (event : value) (d : attrs) :
  progress_class cls = true →
  is_number (percent_of event) = false →
  truthy (percent_of event) = true →
  ∃ method,
    get_result cls = Some method
    ∧ method event d =
      match percent_of event with
      | VStr s =>
          match tincan.float_of_str s with
          | Some x =>
              (Return {| completion := false;
                         score := {[ "scaled" := VFloat x ]} |}, d)
          | None => (Raise (SetterError "scaled"), d)
          end
      | _ => (Raise (SetterError "scaled"), d)
      end.
Proof.
  intros Hcls Hnumber Htruthy. eexists.
  split; [by apply get_result_progress|].
  rewrite BaseProgressTransformer_get_result_eq, (or_truthy _ _ Htruthy).
  unfold tincan.Result_init, tincan.Score_scaled.
  destruct (percent_of event) as [|b|n|x|s|xs|m];
    try discriminate Hnumber; try discriminate Htruthy; try done.
  by destruct (tincan.float_of_str s).
Qed.

(** X14: [get_result] is defined for the progress classes and for no other,
    and every progress class lists the field [result] among its additional
    fields. *)
Theorem result_field_of_progress_classes (cls : transformer) :
  (progress_class cls = true ↔ is_Some (get_result cls))
  ∧ (is_Some (get_result cls) → additional_fields cls = ["result"]).
Proof.
  destruct cls; (split; [split|]); try done;
    try (by intros [? [=]]); by eauto.
Qed.

End ResultProperties.

(** ** The registry *)

Lemma registrations_NoDup : NoDup registrations.*1.
Proof. apply (bool_decide_unpack _). by vm_compute. Qed.

(** X15: every registration line is in force: a key is bound to a class in
    the registry exactly when a [register] line binds them, no line being
    overridden by another. *)
Theorem registry_is_registrations (key : string) (cls : transformer) :
  registry !! key = Some cls ↔ (key, cls) ∈ registrations.
Proof.
  split; [apply elem_of_list_to_map_2|].
  apply elem_of_list_to_map_1, registrations_NoDup.
Qed.

Section RegistryProperties.

Context {C : constants.t}.

(** X16: the event type decides the activity: a registered key is bound to
    a registered class of its own family (completion or progress), whose
    object type is the one for the kind of block the key ends in: module for
    [chapter] and [sequential], lesson for [vertical], course for
    [course]. *)
Theorem registry_object_type (key : string) (cls : transformer) :
  registry !! key = Some cls →
  registered cls = true
  ∧ completion_class cls = completion_key key
  ∧ progress_class cls = progress_key key
  ∧ kind_object_type (block_kind key) = Some (class_object_type cls).
Proof.
  intros Hreg%registry_lookup. unfold registrations in Hreg.
  repeat (apply elem_of_cons in Hreg as [[= -> ->]|Hreg];
          [repeat split; reflexivity|]).
  by apply elem_of_nil in Hreg.
Qed.

End RegistryProperties.

(** ** The properties at concrete events *)

Lemma fresh_object_type {C : constants.t} (cls : transformer) :
  instance_object_type cls ∅ = class_object_type cls.
Proof. unfold instance_object_type. by rewrite fresh_instance. Qed.

Lemma get_object_unconfigured_type_witness :
  truthy (@instance_object_type Sample.consts BaseCompletionTransformer ∅)
    = false
  ∧ @get_object Sample.consts Sample.base BaseCompletionTransformer
      Sample.event_block ∅ = (Raise NotImplementedError, ∅).
Proof.
  assert (truthy (@instance_object_type Sample.consts
                    BaseCompletionTransformer ∅) = false) as Hty
    by (by rewrite fresh_object_type).
  split; [exact Hty|].
  exact (@get_object_unconfigured_type Sample.consts Sample.base
           BaseCompletionTransformer Sample.event_block ∅ Hty).
Defined.

Lemma get_object_returns_activity_witness :
  id_source CourseCompletionTransformer
    = Some ("courses", "data.course_id", true)
  ∧ (@get_object Sample.consts Sample.base CourseCompletionTransformer
       Sample.event_course ∅).1
    = Return {| activity_id := VStr "https://lms.example.com/courses/c1";
                activity_definition :=
                  {| definition_type :=
                       VStr "http://adlnet.gov/expapi/activities/course" |} |}.
Proof.
  split; [reflexivity|].
  by rewrite (@get_object_returns_activity Sample.consts Sample.base
                CourseCompletionTransformer "courses" "data.course_id" true
                Sample.event_course ∅ (VStr "c1") eq_refl (fresh_instance _)
                (fresh_instance _) eq_refl eq_refl (λ _, eq_refl)).
Defined.

Lemma sample_lesson_progress_object :
  (@get_object Sample.consts Sample.base LessonProgressTransformer
     Sample.event_block ∅).1
  = Return {| activity_id := VStr "https://lms.example.com/xblock/b1";
              activity_definition :=
                {| definition_type :=
                     VStr "http://adlnet.gov/expapi/activities/lesson" |} |}.
Proof.
  by rewrite (@get_object_eq Sample.consts Sample.base), fresh_object_type,
    (object_id_present LessonProgressTransformer "xblock" "data.block_id"
       false Sample.event_block ∅ (VStr "b1") eq_refl (fresh_instance _)).
Qed.

Lemma get_object_caches_identifier_witness :
  (@object_id Sample.base LessonProgressTransformer Sample.event_empty
     (@get_object Sample.consts Sample.base LessonProgressTransformer
        Sample.event_block ∅).2).1
  = Return (VStr "https://lms.example.com/xblock/b1").
Proof.
  by rewrite (@get_object_caches_identifier Sample.consts Sample.base
                LessonProgressTransformer Sample.event_block
                Sample.event_empty ∅ _ sample_lesson_progress_object).
Defined.

Lemma get_object_stable_witness :
  (@get_object Sample.consts Sample.base LessonProgressTransformer
     Sample.event_empty
     (@get_object Sample.consts Sample.base LessonProgressTransformer
        Sample.event_block ∅).2).1
  = (@get_object Sample.consts Sample.base LessonProgressTransformer
       Sample.event_block ∅).1.
Proof.
  rewrite (@get_object_stable Sample.consts Sample.base
             LessonProgressTransformer Sample.event_block
             Sample.event_empty ∅ _ sample_lesson_progress_object).
  by rewrite sample_lesson_progress_object.
Defined.

Lemma get_object_writes_only_object_id_witness :
  (@get_object Sample.consts Sample.base LessonProgressTransformer
     Sample.event_block ∅).2 !! "object_type" = None.
Proof.
  rewrite (@get_object_writes_only_object_id Sample.consts Sample.base
             LessonProgressTransformer Sample.event_block ∅ "object_type")
    by discriminate.
  apply fresh_instance.
Defined.

Lemma sample_missing_block_id :
  @object_id Sample.base ModuleCompletionTransformer Sample.event_empty ∅
  = (Raise (ValueError "data.block_id"), ∅).
Proof. by eapply object_id_absent_required. Qed.

Lemma object_id_failure_not_cached_witness :
  (@object_id Sample.base ModuleCompletionTransformer Sample.event_empty ∅).1
    = Raise (ValueError "data.block_id")
  ∧ (@object_id Sample.base ModuleCompletionTransformer Sample.event_block
       (@object_id Sample.base ModuleCompletionTransformer
          Sample.event_empty ∅).2).1
    = Return (VStr "https://lms.example.com/xblock/b1").
Proof.
  assert ((@object_id Sample.base ModuleCompletionTransformer
             Sample.event_empty ∅).1 = Raise (ValueError "data.block_id"))
    as Hraise by (by rewrite sample_missing_block_id).
  split; [exact Hraise|].
  destruct (@object_id_failure_not_cached Sample.base
              ModuleCompletionTransformer Sample.event_empty
              Sample.event_block ∅ _ Hraise) as [_ ->].
  by rewrite (object_id_present ModuleCompletionTransformer "xblock"
                "data.block_id" true Sample.event_block ∅ (VStr "b1")
                eq_refl (fresh_instance _)).
Defined.

Lemma object_id_namespaces_witness :
  (@object_id Sample.base CourseProgressTransformer
     (Sample.event_full (VFloat F1)) ∅).1
    = Return (VStr "https://lms.example.com/courses/c1")
  ∧ (@object_id Sample.base LessonProgressTransformer
       (Sample.event_full (VFloat F1)) ∅).1
    = Return (VStr "https://lms.example.com/xblock/b1").
Proof.
  destruct (@object_id_namespaces Sample.base CourseProgressTransformer
              (Sample.event_full (VFloat F1)) ∅ (VStr "c1")
              (fresh_instance _)) as [Hcourse _].
  destruct (@object_id_namespaces Sample.base LessonProgressTransformer
              (Sample.event_full (VFloat F1)) ∅ (VStr "b1")
              (fresh_instance _)) as [_ Hlesson].
  split.
  - by rewrite (Hcourse (or_intror eq_refl) eq_refl).
  - by rewrite (Hlesson (or_intror eq_refl) eq_refl).
Defined.

Lemma object_id_depends_on_own_field_witness :
  @object_id Sample.base ModuleCompletionTransformer Sample.event_block ∅
  = @object_id Sample.base ModuleCompletionTransformer
      (Sample.event_full (VInt 0)) ∅.
Proof.
  exact (@object_id_depends_on_own_field Sample.base
           ModuleCompletionTransformer "xblock" "data.block_id" true
           Sample.event_block (Sample.event_full (VInt 0)) ∅
           eq_refl eq_refl).
Defined.

Lemma get_result_depends_on_percent_only_witness :
  percent_of (Sample.event_percent (VFloat Sample.F1_5))
    = percent_of (Sample.event_full (VFloat Sample.F1_5))
  ∧ ∃ method method',
      @get_result Sample.python ModuleProgressTransformer = Some method
      ∧ @get_result Sample.python CourseProgressTransformer = Some method'
      ∧ (method (Sample.event_percent (VFloat Sample.F1_5)) ∅).1
        = (method' (Sample.event_full (VFloat Sample.F1_5)) ∅).1.
Proof.
  split; [reflexivity|].
  destruct (@get_result_depends_on_percent_only Sample.python
              ModuleProgressTransformer CourseProgressTransformer
              (Sample.event_percent (VFloat Sample.F1_5))
              (Sample.event_full (VFloat Sample.F1_5)) ∅ ∅
              eq_refl eq_refl eq_refl)
    as (method & method' & Hm & Hm' & Hsame & _).
  by exists method, method'.
Defined.

Lemma sample_result_of_one :
  @BaseProgressTransformer_get_result Sample.python
    (Sample.event_percent (VInt 1)) ∅
  = (Return {| completion := true; score := {[ "scaled" := VFloat F1 ]} |}, ∅).
Proof.
  rewrite BaseProgressTransformer_get_result_eq.
  change (percent_of (Sample.event_percent (VInt 1))) with (VInt 1).
  rewrite or_truthy by reflexivity.
  rewrite (proj2 (eq_float_F1 (VInt 1))) by eauto.
  by rewrite Result_init_int.
Qed.

Lemma completion_implies_score_one_witness :
  ∃ scaled,
    ({[ "scaled" := VFloat F1 ]} : attrs) !! "scaled" = Some scaled
    ∧ (scaled = VFloat F1 ∨ scaled = VInt 1 ∨ scaled = VBool true)
    ∧ in_unit_interval scaled = true.
Proof.
  exact (@completion_implies_score_one Sample.python
           LessonProgressTransformer _
           (Sample.event_percent (VInt 1)) ∅ ∅ _
           eq_refl sample_result_of_one eq_refl).
Defined.

Lemma non_numeric_percent_converted_or_refused_witness :
  (∃ method,
     @get_result Sample.python CourseProgressTransformer = Some method
     ∧ method (Sample.event_percent (VStr "1.0")) ∅
       = (Return {| completion := false;
                    score := {[ "scaled" := VFloat F1 ]} |}, ∅))
  ∧ (∃ method,
       @get_result Sample.python CourseProgressTransformer = Some method
       ∧ method (Sample.event_percent (VStr "abc")) ∅
         = (Raise (SetterError "scaled"), ∅))
  ∧ (∃ method,
       @get_result Sample.python CourseProgressTransformer = Some method
       ∧ method (Sample.event_percent (VList [VFloat F1])) ∅
         = (Raise (SetterError "scaled"), ∅)).
Proof.
  split; [|split].
  - exact (@non_numeric_percent_converted_or_refused Sample.python
             CourseProgressTransformer (Sample.event_percent (VStr "1.0")) ∅
             eq_refl eq_refl eq_refl).
  - exact (@non_numeric_percent_converted_or_refused Sample.python
             CourseProgressTransformer (Sample.event_percent (VStr "abc")) ∅
             eq_refl eq_refl eq_refl).
  - exact (@non_numeric_percent_converted_or_refused Sample.python
             CourseProgressTransformer
             (Sample.event_percent (VList [VFloat F1])) ∅
             eq_refl eq_refl eq_refl).
Defined.

Lemma registry_object_type_witness :
  registry !! "openedx.completion_aggregator.progress.sequential"
    = Some ModuleProgressTransformer
  ∧ block_kind "openedx.completion_aggregator.progress.sequential"
    = "sequential"
  ∧ registered ModuleProgressTransformer = true
  ∧ @kind_object_type Sample.consts
      (block_kind "openedx.completion_aggregator.progress.sequential")
    = Some (VStr "http://adlnet.gov/expapi/activities/module").
Proof.
  assert (registry !! "openedx.completion_aggregator.progress.sequential"
          = Some ModuleProgressTransformer) as Hreg by reflexivity.
  split; [exact Hreg|]. split; [reflexivity|].
  destruct (@registry_object_type Sample.consts _ _ Hreg)
    as (Hregistered & _ & _ & Hkind).
  split; [exact Hregistered|exact Hkind].
Defined.
